(** * inquire: the research orchestrator of [src/inquire/core.py]

    A shallow embedding of [Researcher.__init__], [Researcher.research],
    [Researcher._run_research] and the module-level [research] function,
    with the theorems that settle the properties stated about them.

    The coroutines are embedded as the sequential computation obtained by
    following their [await]s in order: [core.py] starts no task and gathers
    nothing, so one call is one chain of steps.  Effects are explicit: a
    computation takes the orchestrator object, and gives an outcome (a value
    or a raised exception), the orchestrator afterwards, and the calls it
    made to its collaborators, in order. *)

From stdpp Require Import gmap strings list fin_maps.

(** ** A small Python object model *)

Module Py.

(** A class: its qualified name and the names of its proper ancestors
    (the tail of its method resolution order). *)
Record PyClass := MkClass { cls_name : string; cls_bases : list string }.

(** [issubclass(c, s)]: [s] occurs in the method resolution order of [c]. *)
Definition issubclass (c s : PyClass) : bool :=
  bool_decide (cls_name s ∈ cls_name c :: cls_bases c).

(** [str(c)] and [repr(c)] of a class object, as an f-string prints it. *)
Definition str_class (c : PyClass) : string :=
  "<class '" +:+ cls_name c +:+ "'>".

Definition object_cls : PyClass := MkClass "object" [].
Definition NoneType_cls : PyClass := MkClass "NoneType" ["object"].
Definition int_cls : PyClass := MkClass "int" ["object"].
Definition bool_cls : PyClass := MkClass "bool" ["int"; "object"].
Definition str_cls : PyClass := MkClass "str" ["object"].
Definition Path_cls : PyClass :=
  MkClass "pathlib.PosixPath"
          ["pathlib.Path"; "pathlib.PurePosixPath"; "pathlib.PurePath"; "object"].

Definition BaseException_cls : PyClass := MkClass "BaseException" ["object"].
Definition Exception_cls : PyClass :=
  MkClass "Exception" ["BaseException"; "object"].
Definition RuntimeError_cls : PyClass :=
  MkClass "RuntimeError" ["Exception"; "BaseException"; "object"].
Definition KeyboardInterrupt_cls : PyClass :=
  MkClass "KeyboardInterrupt" ["BaseException"; "object"].
Definition CancelledError_cls : PyClass :=
  MkClass "asyncio.CancelledError" ["BaseException"; "object"].

(** The values that reach [core.py]: [None], the scalars a configuration
    holds, [pathlib.Path] objects, and instances of other classes (the
    generated schema types), told apart by an object identity. *)
Inductive PyValue :=
| VNone
| VBool (b : bool)
| VInt (z : Z)
| VStr (s : string)
| VPath (p : string)
| VObj (cls : PyClass) (id : nat).

(** [type(v)]. *)
Definition type_of (v : PyValue) : PyClass :=
  match v with
  | VNone => NoneType_cls
  | VBool _ => bool_cls
  | VInt _ => int_cls
  | VStr _ => str_cls
  | VPath _ => Path_cls
  | VObj c _ => c
  end.

(** [isinstance(v, s)] for a class [s]. *)
Definition isinstance (v : PyValue) (s : PyClass) : bool :=
  issubclass (type_of v) s.

(** [bool(v)], the test of an [if v:].  [None], [False], [0] and the empty
    string are false.  [pathlib.PurePath] defines neither [__bool__] nor
    [__len__], so a path object takes the default of [object] and is true,
    whatever its text; so is an instance of a plain class. *)
Definition truthy (v : PyValue) : bool :=
  match v with
  | VNone => false
  | VBool b => b
  | VInt z => negb (Z.eqb z 0)
  | VStr s => negb (String.eqb s "")
  | VPath _ => true
  | VObj _ _ => true
  end.

(** An exception object: its class, [str(e)], and [e.__cause__]. *)
#[local] Set Warnings "-register-all".
Inductive PyExc :=
  MkExc { exc_type : PyClass; exc_str : string; exc_cause : option PyExc }.

(** What [except Exception] tests. *)
Definition is_Exception (e : PyExc) : bool :=
  issubclass (exc_type e) Exception_cls.

(** [needle in hay] on strings. *)
Fixpoint startswith (hay prefix : string) {struct prefix} : bool :=
  match prefix, hay with
  | EmptyString, _ => true
  | String a p, String b h => Ascii.eqb a b && startswith h p
  | String _ _, EmptyString => false
  end.

Fixpoint str_in (needle hay : string) : bool :=
  startswith hay needle ||
  match hay with
  | EmptyString => false
  | String _ h => str_in needle h
  end.

(** The outcome of a call: a returned value or a raised exception. *)
Inductive Res (A : Type) :=
| Ret (a : A)
| Raise (e : PyExc).
Arguments Ret {A} a.
Arguments Raise {A} e.

(** A callable taking the research text, such as a generated extraction
    function: its name and what awaiting a call of it gives. *)
Record PyCallable := MkCallable {
  fn_name : string;
  fn_call : string → Res PyValue
}.

End Py.
Export Py.

(** ** The collaborators [core.py] imports *)

(** Modelled from the spec: the class [ExtractionError] of
    [inquire.exceptions], which is not under [src/].  It is an ordinary
    exception class built from one message, which is its [str]. *)
Definition ExtractionError_cls : PyClass :=
  MkClass "inquire.exceptions.ExtractionError"
          ["Exception"; "BaseException"; "object"].

Definition ExtractionError (msg : string) (cause : option PyExc) : PyExc :=
  MkExc ExtractionError_cls msg cause.

(** The interface of [inquire.baml_manager.BamlManager] that [core.py]
    uses.  The class itself is not under [src/]; the orchestrator is
    embedded over any implementation of it.  [Mgr] is the manager object's
    state; a method gives [None] when it returns and [Some e] when it raises
    [e], with the state it leaves behind. *)
Class BamlManager (Mgr : Type) := {
  (** [BamlManager(baml_dir)] *)
  mgr_new : PyValue → Mgr;
  (** [await manager.init()] *)
  mgr_init : Mgr → option PyExc * Mgr;
  (** [manager.verify_function(baml_function)] *)
  mgr_verify_function : PyCallable → Mgr → option PyExc * Mgr
}.

(** *** Configuration *)

Module ResearchConfig.

(** Modelled from the spec: the class [ResearchConfig] of [inquire.config],
    which is not under [src/].  A configuration has a schema location and an
    open mapping of further settings. *)
Record t := Mk {
  baml_dir : PyValue;
  settings : gmap string PyValue
}.

(** [self.config.baml_dir = v] *)
Definition set_baml_dir (v : PyValue) (c : t) : t :=
  Mk v (settings c).

(** Reading the configuration back by key. *)
Definition get (k : string) (c : t) : option PyValue :=
  if decide (k = "baml_dir") then Some (baml_dir c) else settings c !! k.

Section FromDict.
(** The working directory and the built-in defaults of the other keys. *)
Variable cwd : string.
Variable default_settings : gmap string PyValue.

(** The default location: [cwd/baml_schemas]. *)
Definition default_baml_dir : PyValue := VPath (cwd +:+ "/baml_schemas").

(** Modelled from the spec: [from_dict] (the spec's [from_overrides])
    merges the overrides onto the built-in defaults, accepts unknown keys
    as they are, and validates nothing. *)
Definition from_dict (overrides : gmap string PyValue) : t :=
  Mk (default default_baml_dir (overrides !! "baml_dir"))
     (delete "baml_dir" overrides ∪ default_settings).

(** The configuration of the built-in defaults alone. *)
Definition defaults : t := from_dict ∅.
End FromDict.

End ResearchConfig.

(** ** The computations of the orchestrator *)

(** The calls an orchestrator makes to its collaborators. *)
Inductive Event :=
| EvInit
| EvVerify (name : string)
| EvBackend (instructions : string)
| EvExtract (text : string).

Definition is_init (ev : Event) : bool :=
  match ev with EvInit => true | _ => false end.
Definition is_verify (ev : Event) : bool :=
  match ev with EvVerify _ => true | _ => false end.
Definition is_backend (ev : Event) : bool :=
  match ev with EvBackend _ => true | _ => false end.
Definition is_extract (ev : Event) : bool :=
  match ev with EvExtract _ => true | _ => false end.

(** How many of the calls in a trace satisfy [p]. *)
Definition calls (p : Event → bool) (tr : list Event) : nat :=
  length (filter (λ ev, p ev = true) tr).

Section Monad.
Context {St : Type}.

(** A computation on a state [St]: outcome, state afterwards, calls made. *)
Definition M (A : Type) : Type := St → Res A * St * list Event.

Definition ret {A} (a : A) : M A := λ s, (Ret a, s, []).

Definition raise {A} (e : PyExc) : M A := λ s, (Raise e, s, []).

Definition bind {A B} (m : M A) (k : A → M B) : M B :=
  λ s, match m s with
       | (Ret a, s1, tr1) =>
           let '(r, s2, tr2) := k a s1 in (r, s2, tr1 ++ tr2)
       | (Raise e, s1, tr1) => (Raise e, s1, tr1)
       end.

(** [try: m  except Exception as e: h e].  An exception that is not an
    instance of [Exception] passes through the handler untouched. *)
Definition try_except {A} (m : M A) (h : PyExc → M A) : M A :=
  λ s, match m s with
       | (Ret a, s1, tr1) => (Ret a, s1, tr1)
       | (Raise e, s1, tr1) =>
           if is_Exception e
           then let '(r, s2, tr2) := h e s1 in (r, s2, tr1 ++ tr2)
           else (Raise e, s1, tr1)
       end.

(** Record one call to a collaborator. *)
Definition emit (ev : Event) : M unit := λ s, (Ret tt, s, [ev]).
End Monad.
Arguments M St A : clear implicits.

(** The computations form a monad; the sequencing notations [x ← m; k] and
    [m;; k] are those of stdpp. *)
#[global] Instance M_ret {St} : MRet (M St) := λ A a, ret a.
#[global] Instance M_bind {St} : MBind (M St) := λ A B k m, bind m k.

(** The outcome, the final state and the trace of a run. *)
Definition outcome {St A} (r : Res A * St * list Event) : Res A := r.1.1.
Definition final {St A} (r : Res A * St * list Event) : St := r.1.2.
Definition trace {St A} (r : Res A * St * list Event) : list Event := r.2.

(** ** The orchestrator: class [Researcher] *)

Module Researcher.
Section Researcher.
Context {Mgr : Type} `{!BamlManager Mgr}.

(** What the environment fixes: the working directory, the built-in
    defaults, and [ResearchConfig.validate_or_raise], which inspects the
    file system ([None] when it returns, [Some e] when it raises [e]). *)
Variable cwd : string.
Variable default_settings : gmap string PyValue.
Variable validate_or_raise : ResearchConfig.t → option PyExc.

(** The attributes of an orchestrator object. *)
Record t := Mk {
  config : ResearchConfig.t;
  baml_manager : Mgr
}.

(** [config or {}]: a dictionary is false when it has no item. *)
Definition or_empty (config : option (gmap string PyValue))
  : gmap string PyValue :=
  match config with
  | None => ∅
  | Some m => if Nat.eqb (size m) 0 then ∅ else m
  end.

(** The configuration after lines 24-28: built from the overrides, then
    the location replaced when [if baml_dir:] passes. *)
Definition configure (baml_dir : PyValue)
           (config : option (gmap string PyValue)) : ResearchConfig.t :=
  let c := ResearchConfig.from_dict cwd default_settings (or_empty config) in
  if truthy baml_dir then ResearchConfig.set_baml_dir baml_dir c else c.

(** [Researcher(baml_dir, config)]; an absent argument is [None]. *)
Definition __init__ (baml_dir : PyValue)
           (config : option (gmap string PyValue)) : Res t :=
  let c := configure baml_dir config in
  let manager := mgr_new (ResearchConfig.baml_dir c) in
  match validate_or_raise c with
  | Some e => Raise e
  | None => Ret (Mk c manager)
  end.

Definition lift_unit (r : option PyExc) : Res unit :=
  match r with
  | None => Ret tt
  | Some e => Raise e
  end.

(** [await self.baml_manager.init()] *)
Definition init : M t unit :=
  λ self, let '(r, m) := mgr_init (baml_manager self) in
          (lift_unit r, Mk (config self) m, [EvInit]).

(** [self.baml_manager.verify_function(baml_function)] *)
Definition verify_function (baml_function : PyCallable) : M t unit :=
  λ self, let '(r, m) := mgr_verify_function baml_function
                                             (baml_manager self) in
          (lift_unit r, Mk (config self) m,
           [EvVerify (fn_name baml_function)]).

(** [await baml_function(text)] *)
Definition call (baml_function : PyCallable) (text : string) : M t PyValue :=
  λ self, (fn_call baml_function text, self, [EvExtract text]).

(** [Researcher._run_research]: the placeholder backend. *)
Definition _run_research (instructions : string) : M t string :=
  emit (EvBackend instructions);;
  mret ("[Research output for: " +:+ instructions +:+ "]").

(** The body of [Researcher.research], lines 55-76.  The backend is
    reached through [self._run_research], a method a subclass may replace,
    so the body is given over any backend [run]. *)
Definition research_with (run : string → M t string)
           (research_instructions : string) (schema : PyClass)
           (baml_function : PyCallable) : M t PyValue :=
  init;;
  verify_function baml_function;;
  research_output ← run research_instructions;
  result ← try_except
             (call baml_function research_output)
             (λ e, raise (ExtractionError
                            ("BAML extraction failed: " +:+ exc_str e)
                            (Some e)));
  if negb (isinstance result schema)
  then raise (ExtractionError
                ("BAML function returned " +:+ str_class (type_of result)
                 +:+ ", expected " +:+ str_class schema)
                None)
  else mret result.

(** [Researcher.research] *)
Definition research : string → PyClass → PyCallable → M t PyValue :=
  research_with _run_research.

End Researcher.
Arguments t Mgr : clear implicits.
End Researcher.

(** What lines 65-76 make of the extractor's result: steps 4 and 5 of the
    method body above, as a function of that result alone. *)
Definition extracted (S : PyClass) (r : Res PyValue) : Res PyValue :=
  match r with
  | Raise e =>
      if is_Exception e
      then Raise (ExtractionError
                    ("BAML extraction failed: " +:+ exc_str e) (Some e))
      else Raise e
  | Ret v =>
      if isinstance v S then Ret v
      else Raise (ExtractionError
                    ("BAML function returned " +:+ str_class (type_of v)
                     +:+ ", expected " +:+ str_class S) None)
  end.

(** ** The module-level function [research] *)

Section Module_level.
Context {Mgr : Type} `{!BamlManager Mgr}.
Variable cwd : string.
Variable default_settings : gmap string PyValue.
Variable validate_or_raise : ResearchConfig.t → option PyExc.

(** Running a method on the object a constructor call gave, when it gave
    one: outcome and calls made. *)
Definition on_new {A} (new : Res (Researcher.t Mgr))
           (m : M (Researcher.t Mgr) A)
  : Res A * list Event :=
  match new with
  | Raise e => (Raise e, [])
  | Ret researcher => let r := m researcher in (outcome r, trace r)
  end.

(** [research(research_instructions, schema, baml_function, config)],
    lines 95-117. *)
Definition research (research_instructions : string) (schema : PyClass)
           (baml_function : PyCallable)
           (config : option (gmap string PyValue))
  : Res PyValue * list Event :=
  on_new (Researcher.__init__ cwd default_settings validate_or_raise
                              VNone config)
         (Researcher.research research_instructions schema baml_function).
End Module_level.

(** The spec's words for the module-level function called with no
    configuration, to be compared with [research] above: construct a
    default orchestrator (no [baml_dir], no configuration overrides) and
    call its [research] method with the same arguments.  A constructor that
    raises ends the call before any collaborator is called. *)
Section Default_orchestrator.
Context {Mgr : Type} `{!BamlManager Mgr}.
Variable cwd : string.
Variable default_settings : gmap string PyValue.
Variable validate_or_raise : ResearchConfig.t → option PyExc.

Definition default_researcher_research
           (research_instructions : string) (schema : PyClass)
           (baml_function : PyCallable) : Res PyValue * list Event :=
  match Researcher.__init__ cwd default_settings validate_or_raise
                            VNone None with
  | Raise e => (Raise e, [])
  | Ret researcher =>
      match Researcher.research research_instructions schema baml_function
                                researcher with
      | (result, _, calls_made) => (result, calls_made)
      end
  end.
End Default_orchestrator.

(** ** A manager as the spec describes it *)

Module SpecManager.

(** Modelled from the spec: the class [BamlManager] of
    [inquire.baml_manager], which is not under [src/].  The spec gives the
    manager two states, uninitialized and ready; the first "ensure ready"
    call performs the setup and the later ones do nothing; the setup may
    fail with an error of the manager's own, and a failed setup leaves the
    manager uninitialized; verification fails when the function is not
    recognized.  [setups] counts the setups performed, as a spy would. *)
Inductive Phase := Uninitialized | Ready.

Record t := Mk {
  phase : Phase;
  setups : nat;
  location : PyValue
}.

Section Impl.
(** The setup at a location, and the recognition check: [None] when they
    complete, [Some e] when they fail with [e]. *)
Variable setup : PyValue → option PyExc.
Variable recognize : PyCallable → option PyExc.

Definition new (baml_dir : PyValue) : t := Mk Uninitialized 0 baml_dir.

Definition init (m : t) : option PyExc * t :=
  match phase m with
  | Ready => (None, m)
  | Uninitialized =>
      match setup (location m) with
      | None => (None, Mk Ready (S (setups m)) (location m))
      | Some e => (Some e, Mk Uninitialized (S (setups m)) (location m))
      end
  end.

Definition verify_function (f : PyCallable) (m : t) : option PyExc * t :=
  (recognize f, m).

Definition manager : BamlManager t :=
  {| mgr_new := new; mgr_init := init;
     mgr_verify_function := verify_function |}.
End Impl.

End SpecManager.

(** ** The same steps, with the built-ins and constructors that can raise *)

Module Full.

(** What a caller can pass as [schema]: a class, or an object that
    [isinstance] refuses as its second argument (a parametrised generic
    such as [list[int]], a protocol class that is not runtime-checkable),
    given by how it prints and by the message of the [TypeError] that
    [isinstance] raises on it. *)
Inductive Schema :=
| SClass (c : PyClass)
| SRefused (printed complaint : string).

Definition TypeError_cls : PyClass :=
  MkClass "TypeError" ["Exception"; "BaseException"; "object"].

(** [isinstance(v, schema)], which returns for a class and raises for the
    rest. *)
Definition isinstance (v : PyValue) (schema : Schema) : Res bool :=
  match schema with
  | SClass c => Ret (Py.isinstance v c)
  | SRefused _ complaint => Raise (MkExc TypeError_cls complaint None)
  end.

(** [str(schema)], as the f-string of line 73 prints it. *)
Definition str_schema (schema : Schema) : string :=
  match schema with
  | SClass c => str_class c
  | SRefused printed _ => printed
  end.

Section Research.
Context {Mgr : Type} `{!BamlManager Mgr}.

(** A step that touches no state and calls no collaborator. *)
Definition lift {A} (r : Res A) : M (Researcher.t Mgr) A :=
  λ self, (r, self, []).

(** [Researcher.research], lines 55-76, over any [schema] argument: the
    [isinstance] of line 71 stands after the [try] statement, so what it
    raises is not handled. *)
Definition research (research_instructions : string) (schema : Schema)
           (baml_function : PyCallable) : M (Researcher.t Mgr) PyValue :=
  Researcher.init;;
  Researcher.verify_function baml_function;;
  research_output ← Researcher._run_research research_instructions;
  result ← try_except
             (Researcher.call baml_function research_output)
             (λ e, raise (ExtractionError
                            ("BAML extraction failed: " +:+ exc_str e)
                            (Some e)));
  conforms ← lift (isinstance result schema);
  if negb conforms
  then raise (ExtractionError
                ("BAML function returned " +:+ str_class (type_of result)
                 +:+ ", expected " +:+ str_schema schema)
                None)
  else mret result.
End Research.

Section Init.
Context {Mgr : Type}.

(** The three calls of the constructor, each of which can raise:
    [ResearchConfig.from_dict], [BamlManager(...)] and
    [validate_or_raise]. *)
Variable from_dict : gmap string PyValue → Res ResearchConfig.t.
Variable construct_manager : PyValue → Res Mgr.
Variable validate_or_raise : ResearchConfig.t → option PyExc.

(** The configuration of lines 27-28, once [from_dict] has given [c]. *)
Definition overridden (baml_dir : PyValue) (c : ResearchConfig.t)
  : ResearchConfig.t :=
  if truthy baml_dir then ResearchConfig.set_baml_dir baml_dir c else c.

(** [Researcher.__init__], lines 24-33, in the order of the source: the
    configuration is built, the location overridden, the manager
    constructed on the location, and only then the configuration
    validated. *)
Definition __init__ (baml_dir : PyValue)
           (config : option (gmap string PyValue)) : Res (Researcher.t Mgr) :=
  match from_dict (Researcher.or_empty config) with
  | Raise e => Raise e
  | Ret c0 =>
      let c := overridden baml_dir c0 in
      match construct_manager (ResearchConfig.baml_dir c) with
      | Raise e => Raise e
      | Ret manager =>
          match validate_or_raise c with
          | Some e => Raise e
          | None => Ret (Researcher.Mk c manager)
          end
      end
  end.
End Init.

End Full.

(** ** Concrete objects, for the examples *)

Module Fixture.

(** A manager whose setup completes and which recognizes every function,
    and one which recognizes none. *)
Definition InvalidFunctionError_cls : PyClass :=
  MkClass "inquire.exceptions.InvalidFunctionError"
          ["Exception"; "BaseException"; "object"].

Definition ok_manager : BamlManager SpecManager.t :=
  SpecManager.manager (λ _, None) (λ _, None).

Definition strict_manager : BamlManager SpecManager.t :=
  SpecManager.manager
    (λ _, None)
    (λ f, Some (MkExc InvalidFunctionError_cls
                      ("not a BAML function: " +:+ fn_name f) None)).

Definition broken_manager : BamlManager SpecManager.t :=
  SpecManager.manager
    (λ _, Some (MkExc RuntimeError_cls "baml init failed" None))
    (λ _, None).

(** Two generated schema types and an instance of each. *)
Definition SchemaA : PyClass :=
  MkClass "baml_client.types.SchemaA" ["pydantic.main.BaseModel"; "object"].
Definition SchemaB : PyClass :=
  MkClass "baml_client.types.SchemaB" ["pydantic.main.BaseModel"; "object"].
Definition instA : PyValue := VObj SchemaA 1.
Definition instB : PyValue := VObj SchemaB 2.

Definition good_extractor : PyCallable := MkCallable "ExtractA" (λ _, Ret instA).
Definition wrong_extractor : PyCallable := MkCallable "ExtractB" (λ _, Ret instB).
Definition boom : PyExc := MkExc RuntimeError_cls "boom" None.
Definition failing_extractor : PyCallable :=
  MkCallable "ExtractA" (λ _, Raise boom).
Definition interrupt : PyExc := MkExc KeyboardInterrupt_cls "boom" None.
Definition interrupted_extractor : PyCallable :=
  MkCallable "ExtractA" (λ _, Raise interrupt).

(** An orchestrator just built in the directory [/work]. *)
Definition researcher0 : Researcher.t SpecManager.t :=
  Researcher.Mk (ResearchConfig.defaults "/work" ∅)
                (SpecManager.new (VPath "/work/baml_schemas")).

(** A backend that fails. *)
Definition failing_backend (instructions : string)
  : M (Researcher.t SpecManager.t) string :=
  raise (MkExc RuntimeError_cls ("no backend for " +:+ instructions) None).

End Fixture.

(** * Properties *)

(** ** Substrings *)

Lemma append_cons (x : Ascii.ascii) (a b : string) :
  String x a +:+ b = String x (a +:+ b).
Proof. reflexivity. Qed.

Lemma append_nil_r (a : string) : a +:+ "" = a.
Proof.
  induction a as [|x a IH]; [done|].
  rewrite append_cons, IH. done.
Qed.

Lemma append_assoc (a b c : string) : (a +:+ b) +:+ c = a +:+ b +:+ c.
Proof.
  induction a as [|x a IH]; [done|].
  rewrite !append_cons, IH. done.
Qed.

Lemma startswith_append (p rest : string) : startswith (p +:+ rest) p = true.
Proof.
  induction p as [|a p IH]; [reflexivity|].
  rewrite append_cons. simpl. rewrite Ascii.eqb_refl. exact IH.
Qed.

Lemma str_in_startswith (needle hay : string) :
  startswith hay needle = true → str_in needle hay = true.
Proof. intros Hp. destruct hay; simpl; rewrite Hp; done. Qed.

(** A text contains each part it is assembled from. *)
Lemma str_in_append (pre needle post : string) :
  str_in needle (pre +:+ needle +:+ post) = true.
Proof.
  induction pre as [|a pre IH].
  - apply str_in_startswith. exact (startswith_append needle post).
  - rewrite append_cons. simpl. rewrite IH. apply orb_true_r.
Qed.

Lemma startswith_append_l (hay rest p : string) :
  startswith hay p = true → startswith (hay +:+ rest) p = true.
Proof.
  revert hay. induction p as [|a p IH]; intros hay; [done|].
  destruct hay as [|b hay]; [done|].
  rewrite append_cons. simpl.
  destruct (Ascii.eqb a b); [apply IH | done].
Qed.

Lemma str_in_append_r (needle pre hay : string) :
  str_in needle hay = true → str_in needle (pre +:+ hay) = true.
Proof.
  intros Hin. induction pre as [|a pre IH]; [exact Hin|].
  rewrite append_cons. simpl. rewrite IH. apply orb_true_r.
Qed.

Lemma str_in_append_l (needle hay post : string) :
  str_in needle hay = true → str_in needle (hay +:+ post) = true.
Proof.
  induction hay as [|a hay IH]; intros H.
  - destruct needle; [|done].
    apply str_in_startswith. reflexivity.
  - simpl in H. apply orb_true_iff in H as [Hp|Hin]; rewrite append_cons.
    + apply str_in_startswith.
      exact (startswith_append_l (String a hay) post needle Hp).
    + simpl. rewrite (IH Hin). apply orb_true_r.
Qed.

Lemma str_in_suffix (pre needle : string) :
  str_in needle (pre +:+ needle) = true.
Proof.
  rewrite <- (append_nil_r needle) at 2. apply str_in_append.
Qed.

(** ** One run of [Researcher.research] *)

Section Research_runs.
Context {Mgr : Type} `{!BamlManager Mgr}.
Implicit Types (self : Researcher.t Mgr) (f : PyCallable) (S : PyClass).
Implicit Types (e : PyExc) (v : PyValue) (instr text : string).

(** The text the placeholder backend gives for [instr]. *)
Local Abbreviation template instr :=
  ("[Research output for: " +:+ instr +:+ "]").

(** The run, step by step: it stops at the first step that raises. *)
Lemma research_with_run run instr S f self :
  Researcher.research_with run instr S f self =
  match mgr_init (Researcher.baml_manager self) with
  | (Some e, m1) =>
      (Raise e, Researcher.Mk (Researcher.config self) m1, [EvInit])
  | (None, m1) =>
      match mgr_verify_function f m1 with
      | (Some e, m2) =>
          (Raise e, Researcher.Mk (Researcher.config self) m2,
           [EvInit; EvVerify (fn_name f)])
      | (None, m2) =>
          match run instr (Researcher.Mk (Researcher.config self) m2) with
          | (Raise e, self3, tr) =>
              (Raise e, self3, [EvInit; EvVerify (fn_name f)] ++ tr)
          | (Ret text, self3, tr) =>
              (extracted S (fn_call f text), self3,
               [EvInit; EvVerify (fn_name f)] ++ tr ++ [EvExtract text])
          end
      end
  end.
Proof.
  unfold Researcher.research_with, mbind, M_bind, bind,
    Researcher.init, Researcher.verify_function; simpl.
  destruct (mgr_init (Researcher.baml_manager self)) as [[e1|] m1];
    simpl; [done|].
  destruct (mgr_verify_function f m1) as [[e2|] m2]; simpl; [done|].
  destruct (run instr _) as [[[text|e3] self3] tr]; simpl; [|done].
  unfold try_except, Researcher.call, extracted.
  destruct (fn_call f text) as [v|e4]; simpl.
  - destruct (isinstance v S); simpl; by rewrite ?app_nil_r.
  - destruct (is_Exception e4); simpl; by rewrite ?app_nil_r.
Qed.

Lemma research_run instr S f self :
  Researcher.research instr S f self =
  match mgr_init (Researcher.baml_manager self) with
  | (Some e, m1) =>
      (Raise e, Researcher.Mk (Researcher.config self) m1, [EvInit])
  | (None, m1) =>
      match mgr_verify_function f m1 with
      | (Some e, m2) =>
          (Raise e, Researcher.Mk (Researcher.config self) m2,
           [EvInit; EvVerify (fn_name f)])
      | (None, m2) =>
          (extracted S (fn_call f (template instr)),
           Researcher.Mk (Researcher.config self) m2,
           [EvInit; EvVerify (fn_name f); EvBackend instr;
            EvExtract (template instr)])
      end
  end.
Proof.
  unfold Researcher.research. rewrite research_with_run.
  destruct (mgr_init _) as [[e1|] m1]; [done|].
  destruct (mgr_verify_function f m1) as [[e2|] m2]; done.
Qed.
End Research_runs.

(** ** The extraction steps *)

Section Research_properties.
Context {Mgr : Type} `{!BamlManager Mgr}.
Implicit Types (self : Researcher.t Mgr) (f : PyCallable) (S : PyClass).
Implicit Types (e : PyExc) (v : PyValue) (instr text : string).
Implicit Types (m : Mgr).

(** C1. When the manager is ready and accepts the extractor, and the
    extractor applied to the produced research text returns a value [v]
    that is an instance of the schema [S], [Researcher.research] returns
    that very [v]. *)
Theorem research_returns_conforming_value instr S f self m1 m2 v :
  mgr_init (Researcher.baml_manager self) = (None, m1) →
  mgr_verify_function f m1 = (None, m2) →
  fn_call f ("[Research output for: " +:+ instr +:+ "]") = Ret v →
  isinstance v S = true →
  outcome (Researcher.research instr S f self) = Ret v.
Proof.
  intros Hinit Hverify Hcall Hconf.
  rewrite research_run, Hinit, Hverify, Hcall.
  unfold outcome, extracted; cbn [fst]. by rewrite Hconf.
Qed.

(** C2, as amended.  When the extractor's invocation on the research text
    raises [e]: if [e] is an instance of [Exception], [research] raises an
    [ExtractionError] whose message contains [str(e)] and whose cause is
    [e]; if it is not (it only derives from [BaseException]), the handler
    does not apply and [e] itself reaches the caller. *)
Theorem research_wraps_extractor_exception instr S f self m1 m2 e :
  mgr_init (Researcher.baml_manager self) = (None, m1) →
  mgr_verify_function f m1 = (None, m2) →
  fn_call f ("[Research output for: " +:+ instr +:+ "]") = Raise e →
  (is_Exception e = true →
   ∃ e', outcome (Researcher.research instr S f self) = Raise e' ∧
         exc_type e' = ExtractionError_cls ∧
         exc_str e' = "BAML extraction failed: " +:+ exc_str e ∧
         str_in (exc_str e) (exc_str e') = true ∧
         exc_cause e' = Some e) ∧
  (is_Exception e = false →
   outcome (Researcher.research instr S f self) = Raise e).
Proof.
  intros Hinit Hverify Hcall.
  rewrite research_run, Hinit, Hverify, Hcall.
  unfold outcome, extracted; cbn [fst]. split; intros ->.
  - eexists. split; [reflexivity|].
    unfold ExtractionError; cbn [exc_type exc_str exc_cause].
    repeat split. apply str_in_suffix.
  - done.
Qed.

(** C3. When the extractor returns a value [v] that is not an instance of
    the schema [S], [research] raises an [ExtractionError] whose message
    prints both [type(v)] and [S], hence names both classes. *)
Theorem research_rejects_nonconforming_value instr S f self m1 m2 v :
  mgr_init (Researcher.baml_manager self) = (None, m1) →
  mgr_verify_function f m1 = (None, m2) →
  fn_call f ("[Research output for: " +:+ instr +:+ "]") = Ret v →
  isinstance v S = false →
  ∃ e', outcome (Researcher.research instr S f self) = Raise e' ∧
        exc_type e' = ExtractionError_cls ∧
        str_in (str_class (type_of v)) (exc_str e') = true ∧
        str_in (str_class S) (exc_str e') = true ∧
        str_in (cls_name (type_of v)) (exc_str e') = true ∧
        str_in (cls_name S) (exc_str e') = true.
Proof.
  intros Hinit Hverify Hcall Hconf.
  rewrite research_run, Hinit, Hverify, Hcall.
  unfold outcome, extracted; cbn [fst]. rewrite Hconf.
  eexists. split; [reflexivity|].
  unfold ExtractionError, str_class; cbn [exc_type exc_str exc_cause].
  repeat split.
  - apply str_in_append.
  - do 2 apply str_in_append_r. apply str_in_suffix.
  - apply str_in_append_r, str_in_append_l, str_in_append.
  - do 3 apply str_in_append_r. apply str_in_append.
Qed.

(** C4. The backend step gives exactly the template text around the
    instructions, whatever the orchestrator's state (so two calls with the
    same instructions give the same text), and that text is what the
    extractor is applied to: a run that reaches the extractor calls it once,
    on that text and on nothing else; its outcome is what lines 65-76 make
    of the extractor's result at that text; and an extractor that returns
    the text it is given makes [research] return the template text. *)
Theorem run_research_gives_template instr self :
  Researcher._run_research instr self =
    (Ret ("[Research output for: " +:+ instr +:+ "]"), self,
     [EvBackend instr]) ∧
  (∀ self', outcome (Researcher._run_research instr self') =
            outcome (Researcher._run_research instr self)) ∧
  (∀ S f text,
     EvExtract text ∈ trace (Researcher.research instr S f self) →
     text = "[Research output for: " +:+ instr +:+ "]") ∧
  (∀ S f m1 m2,
     mgr_init (Researcher.baml_manager self) = (None, m1) →
     mgr_verify_function f m1 = (None, m2) →
     filter (λ ev, is_extract ev = true)
            (trace (Researcher.research instr S f self)) =
       [EvExtract ("[Research output for: " +:+ instr +:+ "]")]) ∧
  (∀ S f m1 m2,
     mgr_init (Researcher.baml_manager self) = (None, m1) →
     mgr_verify_function f m1 = (None, m2) →
     outcome (Researcher.research instr S f self) =
       extracted S (fn_call f ("[Research output for: " +:+ instr +:+ "]"))) ∧
  (∀ name m1 m2,
     let echo := MkCallable name (λ text, Ret (VStr text)) in
     mgr_init (Researcher.baml_manager self) = (None, m1) →
     mgr_verify_function echo m1 = (None, m2) →
     outcome (Researcher.research instr str_cls echo self) =
       Ret (VStr ("[Research output for: " +:+ instr +:+ "]"))).
Proof.
  split; [reflexivity|]. split; [reflexivity|]. split; [|split; [|split]].
  - intros S f text. rewrite research_run.
    destruct (mgr_init _) as [[e1|] m1];
      [|destruct (mgr_verify_function f m1) as [[e2|] m2]];
      unfold trace; cbn [snd]; intros Hin;
      repeat (apply elem_of_cons in Hin as [Hin|Hin]; [try done|]);
      try (by apply elem_of_nil in Hin).
    by inversion Hin.
  - intros S f m1 m2 Hinit Hverify.
    by rewrite research_run, Hinit, Hverify.
  - intros S f m1 m2 Hinit Hverify.
    by rewrite research_run, Hinit, Hverify.
  - intros name m1 m2 echo Hinit Hverify.
    by rewrite research_run, Hinit, Hverify.
Qed.

(** C6. No step is retried: a run calls the manager's [init], its
    [verify_function], the backend and the extractor at most once each, in
    that order, and stops at the first failure.  When verification raises
    [e], the caller gets [e] itself and neither the backend nor the
    extractor has been called; when an earlier or later step fails, the
    run ends in an exception as well, with no call repeated. *)
Theorem research_stops_at_first_failure instr S f self :
  let r := Researcher.research instr S f self in
  let text := "[Research output for: " +:+ instr +:+ "]" in
  trace r `prefix_of`
    [EvInit; EvVerify (fn_name f); EvBackend instr; EvExtract text] ∧
  (∀ e m1,
     mgr_init (Researcher.baml_manager self) = (Some e, m1) →
     outcome r = Raise e ∧ trace r = [EvInit]) ∧
  (∀ e m1 m2,
     mgr_init (Researcher.baml_manager self) = (None, m1) →
     mgr_verify_function f m1 = (Some e, m2) →
     outcome r = Raise e ∧
     trace r = [EvInit; EvVerify (fn_name f)] ∧
     calls is_verify (trace r) = 1 ∧
     calls is_backend (trace r) = 0 ∧
     calls is_extract (trace r) = 0) ∧
  (∀ e m1 m2,
     mgr_init (Researcher.baml_manager self) = (None, m1) →
     mgr_verify_function f m1 = (None, m2) →
     fn_call f text = Raise e →
     (∃ e', outcome r = Raise e') ∧ calls is_extract (trace r) = 1) ∧
  (∀ v m1 m2,
     mgr_init (Researcher.baml_manager self) = (None, m1) →
     mgr_verify_function f m1 = (None, m2) →
     fn_call f text = Ret v →
     isinstance v S = false →
     (∃ e', outcome r = Raise e') ∧ calls is_extract (trace r) = 1).
Proof.
  cbv zeta. rewrite research_run. repeat split.
  - destruct (mgr_init _) as [[e1|] m1];
      [|destruct (mgr_verify_function f m1) as [[e2|] m2]];
      unfold trace; cbn [snd].
    + by eexists [_; _; _].
    + by eexists [_; _].
    + by exists [].
  - by rewrite H.
  - by rewrite H.
  - by rewrite H, H0.
  - by rewrite H, H0.
  - by rewrite H, H0.
  - by rewrite H, H0.
  - by rewrite H, H0.
  - rewrite H, H0, H1. unfold outcome, extracted; cbn [fst].
    destruct (is_Exception e); by eexists.
  - by rewrite H, H0.
  - rewrite H, H0, H1. unfold outcome, extracted; cbn [fst].
    rewrite H2. by eexists.
  - by rewrite H, H0.
Qed.

(** C10. An exception raised by the manager's [init], by its
    [verify_function] or by the backend reaches the caller as it is: the
    [ExtractionError] handler encloses the extractor call only.  The
    statement is over any backend [run]; [Researcher.research] is the
    instance at [_run_research]. *)
Theorem early_failures_propagate_unchanged
        (run : string → M (Researcher.t Mgr) string) instr S f self :
  let r := Researcher.research_with run instr S f self in
  (∀ e m1,
     mgr_init (Researcher.baml_manager self) = (Some e, m1) →
     outcome r = Raise e) ∧
  (∀ e m1 m2,
     mgr_init (Researcher.baml_manager self) = (None, m1) →
     mgr_verify_function f m1 = (Some e, m2) →
     outcome r = Raise e) ∧
  (∀ e m1 m2 self3 tr,
     mgr_init (Researcher.baml_manager self) = (None, m1) →
     mgr_verify_function f m1 = (None, m2) →
     run instr (Researcher.Mk (Researcher.config self) m2)
       = (Raise e, self3, tr) →
     outcome r = Raise e).
Proof.
  cbv zeta. rewrite research_with_run. repeat split.
  - intros e m1 ->. done.
  - intros e m1 m2 -> ->. done.
  - intros e m1 m2 self3 tr -> -> ->. done.
Qed.
End Research_properties.


(** ** Construction and the module-level function *)

Section Construction_properties.
Context {Mgr : Type} `{!BamlManager Mgr}.
Variable cwd : string.
Variable default_settings : gmap string PyValue.
Variable validate_or_raise : ResearchConfig.t → option PyExc.

(** C5. The module-level [research] called without a configuration gives
    what building [Researcher()] and calling its [research] method with the
    same arguments gives: the same value or the same exception, through the
    same calls.  Passing an empty configuration changes nothing. *)
Theorem research_function_is_default_researcher
        (instr : string) (S : PyClass) (f : PyCallable) :
  research cwd default_settings validate_or_raise instr S f None =
    default_researcher_research cwd default_settings validate_or_raise
                                instr S f ∧
  research cwd default_settings validate_or_raise instr S f (Some ∅) =
    default_researcher_research cwd default_settings validate_or_raise
                                instr S f.
Proof.
  unfold research, on_new, default_researcher_research.
  change (Researcher.__init__ cwd default_settings validate_or_raise
                              VNone (Some ∅))
    with (Researcher.__init__ cwd default_settings validate_or_raise
                              VNone None).
  destruct (Researcher.__init__ _ _ _ VNone None) as [researcher|e];
    [|done].
  unfold outcome, trace.
  destruct (Researcher.research instr S f researcher) as [[result self'] tr].
  done.
Qed.

(** C9, as amended.  [baml_dir] replaces the configured location exactly
    when it is true as a condition.  A false value ([None], an empty string)
    leaves the location of the configuration mapping, or the default, for
    both the manager and the validation; a true value, which every
    [pathlib.Path] is, is what the manager is built on and what is
    validated. *)
Theorem baml_dir_overrides_when_truthy
        (b : PyValue) (config : option (gmap string PyValue)) :
  let c0 := ResearchConfig.from_dict cwd default_settings
                                     (Researcher.or_empty config) in
  let c1 := ResearchConfig.set_baml_dir b c0 in
  ResearchConfig.baml_dir c0 =
    match Researcher.or_empty config !! "baml_dir" with
    | Some v => v
    | None => VPath (cwd +:+ "/baml_schemas")
    end ∧
  (truthy b = false →
   Researcher.__init__ cwd default_settings validate_or_raise b config =
     match validate_or_raise c0 with
     | Some e => Raise e
     | None => Ret (Researcher.Mk c0 (mgr_new (ResearchConfig.baml_dir c0)))
     end) ∧
  (truthy b = true →
   ResearchConfig.baml_dir c1 = b ∧
   Researcher.__init__ cwd default_settings validate_or_raise b config =
     match validate_or_raise c1 with
     | Some e => Raise e
     | None => Ret (Researcher.Mk c1 (mgr_new b))
     end).
Proof.
  cbv zeta. split; [|split].
  - unfold ResearchConfig.from_dict; simpl.
    by destruct (Researcher.or_empty config !! "baml_dir").
  - intros Hb. unfold Researcher.__init__, Researcher.configure.
    by rewrite Hb.
  - intros Hb. split; [done|].
    unfold Researcher.__init__, Researcher.configure.
    by rewrite Hb.
Qed.
End Construction_properties.

(** ** Configuration *)

(** C7. A configuration built from a mapping gives, for every key of the
    mapping, the value the mapping gives it, whatever the key and the value
    (nothing is checked and the construction cannot fail); a key the mapping
    lacks takes its built-in default: the location [cwd/baml_schemas] for
    ["baml_dir"], and for any other key what the built-in settings give
    it. *)
Theorem from_dict_keeps_overrides
        (cwd : string) (default_settings overrides : gmap string PyValue)
        (k : string) :
  (∀ v, overrides !! k = Some v →
        ResearchConfig.get k
          (ResearchConfig.from_dict cwd default_settings overrides) = Some v) ∧
  (overrides !! k = None → k = "baml_dir" →
   ResearchConfig.get k
     (ResearchConfig.from_dict cwd default_settings overrides) =
   Some (VPath (cwd +:+ "/baml_schemas"))) ∧
  (overrides !! k = None → k ≠ "baml_dir" →
   ResearchConfig.get k
     (ResearchConfig.from_dict cwd default_settings overrides) =
   default_settings !! k).
Proof.
  unfold ResearchConfig.get, ResearchConfig.from_dict.
  simpl. destruct (decide (k = "baml_dir")) as [->|Hk].
  - split; [|split].
    + intros v ->. done.
    + intros -> _. done.
    + done.
  - split; [|split].
    + intros v Hv. apply lookup_union_Some_l.
      by rewrite lookup_delete_ne.
    + done.
    + intros Hnone _.
      rewrite lookup_union_r; [done|].
      by rewrite lookup_delete_ne.
Qed.

(** ** The manager's initialization *)

Section Manager_properties.
Variable setup : PyValue → option PyExc.
Variable recognize : PyCallable → option PyExc.

Local Abbreviation mgr := (SpecManager.manager setup recognize).
Local Abbreviation run_research i S f self :=
  (@Researcher.research SpecManager.t mgr i S f self).

(** Once ready, the manager is left as it is by a call of [research]. *)
Lemma research_keeps_ready_manager i S f (self : Researcher.t SpecManager.t) :
  SpecManager.phase (Researcher.baml_manager self) = SpecManager.Ready →
  Researcher.baml_manager (final (run_research i S f self)) =
  Researcher.baml_manager self.
Proof.
  intros Hready. rewrite research_run. simpl.
  unfold SpecManager.init. rewrite Hready.
  unfold SpecManager.verify_function.
  by destruct (recognize f).
Qed.

(** C8. On an orchestrator whose manager is uninitialized and whose setup
    completes, two calls of [research] in succession perform the setup once:
    the first call performs it and leaves the manager ready, the second
    leaves the manager as it found it.  A ready manager stays ready through
    any call, with the same count of setups. *)
Theorem init_performs_setup_once
        i1 S1 f1 i2 S2 f2 (self : Researcher.t SpecManager.t) :
  let r1 := run_research i1 S1 f1 self in
  let r2 := run_research i2 S2 f2 (final r1) in
  (SpecManager.phase (Researcher.baml_manager self)
     = SpecManager.Uninitialized →
   setup (SpecManager.location (Researcher.baml_manager self)) = None →
   SpecManager.phase (Researcher.baml_manager (final r1))
     = SpecManager.Ready ∧
   SpecManager.setups (Researcher.baml_manager (final r1))
     = 1 + SpecManager.setups (Researcher.baml_manager self) ∧
   Researcher.baml_manager (final r2) = Researcher.baml_manager (final r1) ∧
   SpecManager.setups (Researcher.baml_manager (final r2))
     = 1 + SpecManager.setups (Researcher.baml_manager self)) ∧
  (∀ i S f (self' : Researcher.t SpecManager.t),
     SpecManager.phase (Researcher.baml_manager self') = SpecManager.Ready →
     let r := run_research i S f self' in
     SpecManager.phase (Researcher.baml_manager (final r))
       = SpecManager.Ready ∧
     SpecManager.setups (Researcher.baml_manager (final r))
       = SpecManager.setups (Researcher.baml_manager self')).
Proof.
  cbv zeta. split.
  - intros Hphase Hsetup.
    assert (SpecManager.phase
              (Researcher.baml_manager (final (run_research i1 S1 f1 self)))
            = SpecManager.Ready ∧
            SpecManager.setups
              (Researcher.baml_manager (final (run_research i1 S1 f1 self)))
            = 1 + SpecManager.setups (Researcher.baml_manager self))
      as [Hready Hcount].
    { rewrite research_run. simpl.
      unfold SpecManager.init. rewrite Hphase, Hsetup.
      unfold SpecManager.verify_function.
      by destruct (recognize f1). }
    pose proof (research_keeps_ready_manager i2 S2 f2 _ Hready) as Hsame.
    repeat split; [done|done|done|].
    by rewrite Hsame.
  - intros i S f self' Hready.
    by rewrite (research_keeps_ready_manager i S f self' Hready).
Qed.
End Manager_properties.

(** * Examples *)

Import Fixture.

Local Abbreviation run_on mgr i S f self :=
  (@Researcher.research SpecManager.t mgr i S f self).

(** A conforming instance comes back as it is. *)
Lemma research_returns_conforming_value_witness :
  outcome (run_on ok_manager "find X" SchemaA good_extractor researcher0)
  = Ret instA.
Proof.
  eapply (@research_returns_conforming_value _ ok_manager);
    reflexivity.
Defined.

(** [RuntimeError("boom")] from the extractor is wrapped, with its message
    in the new message and itself as the cause. *)
Lemma research_wraps_extractor_exception_witness :
  ∃ e', outcome (run_on ok_manager "find X" SchemaA failing_extractor
                        researcher0) = Raise e' ∧
        exc_type e' = ExtractionError_cls ∧
        exc_str e' = "BAML extraction failed: boom" ∧
        str_in "boom" (exc_str e') = true ∧
        exc_cause e' = Some boom.
Proof.
  edestruct (@research_wraps_extractor_exception _ ok_manager
               "find X" SchemaA failing_extractor researcher0)
    as [Hwrapped _]; [reflexivity..|].
  apply Hwrapped. reflexivity.
Defined.

(** C2 as stated fails: a [KeyboardInterrupt] raised by the extractor is not
    an instance of [Exception]; it reaches the caller as it is and no
    [ExtractionError] is raised. *)
Lemma keyboard_interrupt_is_not_wrapped :
  let r := run_on ok_manager "find X" SchemaA interrupted_extractor
                  researcher0 in
  fn_call interrupted_extractor "[Research output for: find X]"
    = Raise interrupt ∧
  outcome r = Raise interrupt ∧
  ¬ (∃ e', outcome r = Raise e' ∧ exc_type e' = ExtractionError_cls).
Proof.
  cbv zeta. split; [reflexivity|]. split; [reflexivity|].
  intros (e' & Hout & Hty).
  change (@Raise PyValue interrupt = Raise e') in Hout.
  injection Hout as <-. discriminate Hty.
Qed.

(** An instance of another schema is refused, and both classes are named. *)
Lemma research_rejects_nonconforming_value_witness :
  ∃ e', outcome (run_on ok_manager "find X" SchemaA wrong_extractor
                        researcher0) = Raise e' ∧
        exc_type e' = ExtractionError_cls ∧
        str_in "<class 'baml_client.types.SchemaB'>" (exc_str e') = true ∧
        str_in "<class 'baml_client.types.SchemaA'>" (exc_str e') = true ∧
        str_in "baml_client.types.SchemaB" (exc_str e') = true ∧
        str_in "baml_client.types.SchemaA" (exc_str e') = true.
Proof.
  exact (@research_rejects_nonconforming_value _ ok_manager
           "find X" SchemaA wrong_extractor researcher0 _ _ instB
           eq_refl eq_refl eq_refl eq_refl).
Defined.

(** The extractor is called once, on the template text, and an extractor
    that returns its argument returns that text. *)
Lemma run_research_gives_template_witness :
  filter (λ ev, is_extract ev = true)
         (trace (run_on ok_manager "find X" SchemaA good_extractor
                        researcher0))
  = [EvExtract "[Research output for: find X]"] ∧
  outcome (run_on ok_manager "find X" SchemaA wrong_extractor researcher0)
  = extracted SchemaA (Ret instB) ∧
  outcome (run_on ok_manager "find X" str_cls
                  (MkCallable "Echo" (λ text, Ret (VStr text))) researcher0)
  = Ret (VStr "[Research output for: find X]").
Proof.
  pose proof (@run_research_gives_template _ ok_manager "find X" researcher0)
    as (_ & _ & _ & Hcalled & Hmade & Hecho).
  split; [|split].
  - eapply Hcalled; reflexivity.
  - eapply (Hmade SchemaA wrong_extractor); reflexivity.
  - eapply (Hecho "Echo"); reflexivity.
Defined.

(** A function the manager does not recognize: its error reaches the caller
    and nothing further is called. *)
Lemma research_stops_at_first_failure_witness :
  let r := run_on strict_manager "find X" SchemaA good_extractor
                  researcher0 in
  outcome r = Raise (MkExc InvalidFunctionError_cls
                           "not a BAML function: ExtractA" None) ∧
  trace r = [EvInit; EvVerify "ExtractA"] ∧
  calls is_verify (trace r) = 1 ∧
  calls is_backend (trace r) = 0 ∧
  calls is_extract (trace r) = 0.
Proof.
  eapply (proj1 (proj2 (proj2
            (@research_stops_at_first_failure _ strict_manager "find X"
               SchemaA good_extractor researcher0))));
    reflexivity.
Defined.

(** A failed setup and a failed backend reach the caller as they are. *)
Lemma early_failures_propagate_unchanged_witness :
  outcome (run_on broken_manager "find X" SchemaA good_extractor researcher0)
    = Raise (MkExc RuntimeError_cls "baml init failed" None) ∧
  outcome (@Researcher.research_with _ strict_manager Researcher._run_research
             "find X" SchemaA good_extractor researcher0)
    = Raise (MkExc InvalidFunctionError_cls
                   "not a BAML function: ExtractA" None) ∧
  outcome (@Researcher.research_with _ ok_manager failing_backend
             "find X" SchemaA good_extractor researcher0)
    = Raise (MkExc RuntimeError_cls "no backend for find X" None).
Proof.
  split; [|split].
  - eapply (proj1 (@early_failures_propagate_unchanged _ broken_manager
                     Researcher._run_research "find X" SchemaA
                     good_extractor researcher0)).
    reflexivity.
  - eapply (proj1 (proj2 (@early_failures_propagate_unchanged
                            _ strict_manager Researcher._run_research
                            "find X" SchemaA good_extractor researcher0)));
      reflexivity.
  - eapply (proj2 (proj2 (@early_failures_propagate_unchanged
                            _ ok_manager failing_backend
                            "find X" SchemaA good_extractor researcher0)));
      reflexivity.
Defined.

(** An unknown key given in the overrides is kept; the keys not given take
    the built-in location and the built-in setting. *)
Lemma from_dict_keeps_overrides_witness :
  ResearchConfig.get "model"
    (ResearchConfig.from_dict "/work" {["timeout" := VInt 30]}
                              {["model" := VStr "gpt"]})
    = Some (VStr "gpt") ∧
  ResearchConfig.get "baml_dir"
    (ResearchConfig.from_dict "/work" {["timeout" := VInt 30]}
                              {["model" := VStr "gpt"]})
    = Some (VPath "/work/baml_schemas") ∧
  ResearchConfig.get "timeout"
    (ResearchConfig.from_dict "/work" {["timeout" := VInt 30]}
                              {["model" := VStr "gpt"]})
    = Some (VInt 30).
Proof.
  split; [|split].
  - apply (proj1 (from_dict_keeps_overrides
                    "/work" {["timeout" := VInt 30]}
                    {["model" := VStr "gpt"]} "model")).
    reflexivity.
  - apply (proj1 (proj2 (from_dict_keeps_overrides
                           "/work" {["timeout" := VInt 30]}
                           {["model" := VStr "gpt"]} "baml_dir")));
      reflexivity.
  - change (Some (VInt 30))
      with (({["timeout" := VInt 30]} : gmap string PyValue) !! "timeout").
    apply (proj2 (proj2 (from_dict_keeps_overrides
                           "/work" {["timeout" := VInt 30]}
                           {["model" := VStr "gpt"]} "timeout")));
      [reflexivity | discriminate].
Defined.

(** Two calls on a new orchestrator: one setup. *)
Lemma init_performs_setup_once_witness :
  let r1 := run_on ok_manager "find X" SchemaA good_extractor researcher0 in
  let r2 := run_on ok_manager "find Y" SchemaB wrong_extractor (final r1) in
  SpecManager.phase (Researcher.baml_manager (final r1)) = SpecManager.Ready ∧
  SpecManager.setups (Researcher.baml_manager (final r1)) = 1 ∧
  Researcher.baml_manager (final r2) = Researcher.baml_manager (final r1) ∧
  SpecManager.setups (Researcher.baml_manager (final r2)) = 1.
Proof.
  apply (proj1 (init_performs_setup_once
                  (λ _, None) (λ _, None)
                  "find X" SchemaA good_extractor
                  "find Y" SchemaB wrong_extractor researcher0));
    reflexivity.
Defined.

(** An empty string as [baml_dir] is ignored; a path is applied. *)
Lemma baml_dir_overrides_when_truthy_witness :
  @Researcher.__init__ _ ok_manager "/work" ∅ (λ _, None) (VStr "") None
    = Ret (Researcher.Mk (ResearchConfig.defaults "/work" ∅)
                         (SpecManager.new (VPath "/work/baml_schemas"))) ∧
  @Researcher.__init__ _ ok_manager "/work" ∅ (λ _, None)
                       (VPath "/srv/schemas") None
    = Ret (Researcher.Mk
             (ResearchConfig.set_baml_dir (VPath "/srv/schemas")
                                          (ResearchConfig.defaults "/work" ∅))
             (SpecManager.new (VPath "/srv/schemas"))).
Proof.
  split.
  - apply (proj1 (proj2 (@baml_dir_overrides_when_truthy
                           _ ok_manager "/work" ∅ (λ _, None)
                           (VStr "") None))).
    reflexivity.
  - apply (proj2 (proj2 (@baml_dir_overrides_when_truthy
                           _ ok_manager "/work" ∅ (λ _, None)
                           (VPath "/srv/schemas") None))).
    reflexivity.
Defined.

(** C9 as stated fails at its own example: [Path("")] is true as a
    condition, so the override is applied; the manager is built on it and
    the default location is not used. *)
Lemma empty_path_is_applied :
  truthy (VPath "") = true ∧
  ∃ r, @Researcher.__init__ _ ok_manager "/work" ∅ (λ _, None)
                            (VPath "") None = Ret r ∧
       ResearchConfig.baml_dir (Researcher.config r) = VPath "" ∧
       SpecManager.location (Researcher.baml_manager r) = VPath "" ∧
       ResearchConfig.baml_dir (Researcher.config r)
         ≠ ResearchConfig.default_baml_dir "/work".
Proof.
  split; [reflexivity|].
  eexists. split; [reflexivity|].
  repeat split. discriminate.
Qed.

(** * Further properties of [core.py] *)

(** ** What a run of [Researcher.research] leaves and gives *)

Section Run_properties.
Context {Mgr : Type} `{!BamlManager Mgr}.
Implicit Types (self : Researcher.t Mgr) (f : PyCallable) (S : PyClass).
Implicit Types (e : PyExc) (v : PyValue) (instr : string).

(** X1. [research] never assigns to [self.config]: whatever the run does,
    the orchestrator's configuration afterwards is the one before. *)
Theorem research_leaves_config instr S f self :
  Researcher.config (final (Researcher.research instr S f self))
  = Researcher.config self.
Proof.
  rewrite research_run.
  destruct (mgr_init _) as [[e1|] m1]; [done|].
  destruct (mgr_verify_function f m1) as [[e2|] m2]; done.
Qed.

(** X2. [research] never reads [self.config] either: two orchestrators
    holding the same manager give the same outcome, make the same calls and
    leave the same manager, however their configurations differ. *)
Theorem research_ignores_config instr S f self1 self2 :
  Researcher.baml_manager self1 = Researcher.baml_manager self2 →
  outcome (Researcher.research instr S f self1)
    = outcome (Researcher.research instr S f self2) ∧
  trace (Researcher.research instr S f self1)
    = trace (Researcher.research instr S f self2) ∧
  Researcher.baml_manager (final (Researcher.research instr S f self1))
    = Researcher.baml_manager (final (Researcher.research instr S f self2)).
Proof.
  intros Hmgr. rewrite !research_run, Hmgr.
  destruct (mgr_init _) as [[e1|] m1]; [done|].
  destruct (mgr_verify_function f m1) as [[e2|] m2]; done.
Qed.

(** X3. Whatever [research] returns is an instance of the schema, and is the
    value the extractor returned on the template text; a run that returns
    has made each of the four calls once, in order. *)
Theorem research_returns_only_conforming instr S f self v :
  outcome (Researcher.research instr S f self) = Ret v →
  isinstance v S = true ∧
  fn_call f ("[Research output for: " +:+ instr +:+ "]") = Ret v ∧
  trace (Researcher.research instr S f self)
    = [EvInit; EvVerify (fn_name f); EvBackend instr;
       EvExtract ("[Research output for: " +:+ instr +:+ "]")] ∧
  ∃ m1 m2, mgr_init (Researcher.baml_manager self) = (None, m1) ∧
           mgr_verify_function f m1 = (None, m2).
Proof.
  rewrite research_run.
  destruct (mgr_init _) as [[e1|] m1]; [done|].
  destruct (mgr_verify_function f m1) as [[e2|] m2] eqn:Hverify; [done|].
  unfold outcome, trace, extracted; cbn [fst snd].
  destruct (fn_call f _) as [v'|e'].
  - destruct (isinstance v' S) eqn:Hconf; cbn [fst snd]; [|done].
    intros Heq. inversion Heq; subst.
    split; [done|]. split; [done|]. split; [done|].
    by exists m1, m2.
  - by destruct (is_Exception e').
Qed.

(** X5. A failure of the extractor or of the conformance check does not
    touch the manager: once [init] and [verify_function] have returned, the
    orchestrator is left with the manager as verification left it, whatever
    the extractor does. *)
Theorem extraction_leaves_verified_manager instr S f self m1 m2 :
  mgr_init (Researcher.baml_manager self) = (None, m1) →
  mgr_verify_function f m1 = (None, m2) →
  final (Researcher.research instr S f self)
  = Researcher.Mk (Researcher.config self) m2.
Proof.
  intros Hinit Hverify. by rewrite research_run, Hinit, Hverify.
Qed.

End Run_properties.

(** ** The research text *)

Lemma append_bracket_inj (a b : string) : a +:+ "]" = b +:+ "]" → a = b.
Proof.
  revert b. induction a as [|x a IH]; intros [|y b] Heq.
  - done.
  - rewrite append_cons in Heq. injection Heq as _ Hrest.
    destruct b; discriminate.
  - rewrite append_cons in Heq. injection Heq as _ Hrest.
    destruct a; discriminate.
  - rewrite !append_cons in Heq. injection Heq as -> Hrest.
    by rewrite (IH b Hrest).
Qed.

(** X7. The placeholder backend loses nothing of the instructions: its text
    contains them verbatim, and two instructions with the same text are the
    same instructions. *)
Theorem run_research_keeps_instructions
        {Mgr : Type} (a b : string) (self1 self2 : Researcher.t Mgr) text :
  outcome (Researcher._run_research a self1) = Ret text →
  str_in a text = true ∧
  (outcome (Researcher._run_research b self2) = Ret text → a = b).
Proof.
  intros Ha. inversion Ha as [Htext]. split.
  - apply str_in_append.
  - intros Hb. inversion Hb as [Heq].
    apply String.app_inj in Heq. by apply append_bracket_inj.
Qed.

(** ** Construction *)

Section Init_properties.
Context {Mgr : Type} `{!BamlManager Mgr}.
Variable cwd : string.
Variable default_settings : gmap string PyValue.
Variable validate_or_raise : ResearchConfig.t → option PyExc.

Local Abbreviation new_researcher :=
  (Researcher.__init__ cwd default_settings validate_or_raise).
Local Abbreviation configured :=
  (Researcher.configure cwd default_settings).

(** X8. [config or {}] is the mapping itself whenever one is given: an
    empty mapping is replaced by an empty mapping, so the configuration is
    built from exactly the overrides passed, or from none. *)
Theorem or_empty_is_the_mapping (config : option (gmap string PyValue)) :
  Researcher.or_empty config = default ∅ config.
Proof.
  destruct config as [m|]; [|done]. simpl.
  destruct (Nat.eqb_spec (size m) 0) as [Hsize|_]; [|done].
  symmetry. by apply map_size_empty_iff.
Qed.

(** X9. The [baml_dir] argument replaces the location and nothing else:
    every other key reads as it would without the argument, and the
    argument, when true, wins over a ["baml_dir"] key of the mapping. *)
Theorem baml_dir_argument_touches_location_only
        (b : PyValue) (config : option (gmap string PyValue)) (k : string) :
  ResearchConfig.settings (configured b config)
    = ResearchConfig.settings (configured VNone config) ∧
  (k ≠ "baml_dir" →
   ResearchConfig.get k (configured b config)
     = ResearchConfig.get k (configured VNone config)) ∧
  (truthy b = true →
   ResearchConfig.get "baml_dir" (configured b config) = Some b).
Proof.
  unfold Researcher.configure, ResearchConfig.get. cbn [truthy].
  split; [|split].
  - by destruct (truthy b).
  - intros Hk. rewrite !decide_False by done. by destruct (truthy b).
  - intros ->. done.
Qed.
End Init_properties.

(** ** Examples for the further properties *)

(** Two orchestrators on the same manager, configured differently. *)
Lemma research_ignores_config_witness :
  let other := Researcher.Mk
                 (ResearchConfig.set_baml_dir
                    (VPath "/elsewhere") (ResearchConfig.defaults "/work" ∅))
                 (SpecManager.new (VPath "/work/baml_schemas")) in
  outcome (run_on ok_manager "find X" SchemaA good_extractor researcher0)
    = outcome (run_on ok_manager "find X" SchemaA good_extractor other) ∧
  trace (run_on ok_manager "find X" SchemaA good_extractor researcher0)
    = trace (run_on ok_manager "find X" SchemaA good_extractor other) ∧
  Researcher.baml_manager
    (final (run_on ok_manager "find X" SchemaA good_extractor researcher0))
    = Researcher.baml_manager
        (final (run_on ok_manager "find X" SchemaA good_extractor other)).
Proof.
  cbv zeta.
  apply (@research_ignores_config _ ok_manager). reflexivity.
Defined.

Lemma research_returns_only_conforming_witness :
  isinstance instA SchemaA = true ∧
  fn_call good_extractor "[Research output for: find X]" = Ret instA ∧
  trace (run_on ok_manager "find X" SchemaA good_extractor researcher0)
    = [EvInit; EvVerify "ExtractA"; EvBackend "find X";
       EvExtract "[Research output for: find X]"] ∧
  ∃ m1 m2,
    SpecManager.init (λ _, None) (Researcher.baml_manager researcher0)
      = (None, m1) ∧
    SpecManager.verify_function (λ _, None) good_extractor m1 = (None, m2).
Proof.
  apply (@research_returns_only_conforming _ ok_manager
           "find X" SchemaA good_extractor researcher0 instA).
  reflexivity.
Defined.

(** After a failed extraction the manager is ready. *)
Lemma extraction_leaves_verified_manager_witness :
  final (run_on ok_manager "find X" SchemaA failing_extractor researcher0)
  = Researcher.Mk (Researcher.config researcher0)
                  (SpecManager.Mk SpecManager.Ready 1
                                  (VPath "/work/baml_schemas")).
Proof.
  apply (@extraction_leaves_verified_manager _ ok_manager
           "find X" SchemaA failing_extractor researcher0
           (SpecManager.Mk SpecManager.Ready 1 (VPath "/work/baml_schemas")));
    reflexivity.
Defined.


Lemma run_research_keeps_instructions_witness :
  str_in "find X" "[Research output for: find X]" = true ∧
  (outcome (Researcher._run_research "find X" researcher0)
     = Ret "[Research output for: find X]" →
   "find X" = "find X").
Proof.
  apply (run_research_keeps_instructions
           "find X" "find X" researcher0 researcher0).
  reflexivity.
Defined.

(** An argument and a mapping that both give a location, and another key. *)
Lemma baml_dir_argument_touches_location_only_witness :
  let config := Some ({["model" := VStr "gpt"]} : gmap string PyValue) in
  ResearchConfig.get "model"
    (Researcher.configure "/work" ∅ (VPath "/srv/schemas") config)
    = ResearchConfig.get "model" (Researcher.configure "/work" ∅ VNone config) ∧
  ResearchConfig.get "baml_dir"
    (Researcher.configure "/work" ∅ (VPath "/srv/schemas") config)
    = Some (VPath "/srv/schemas").
Proof.
  cbv zeta. split.
  - apply (proj1 (proj2 (baml_dir_argument_touches_location_only
                           "/work" ∅ (VPath "/srv/schemas")
                           (Some {["model" := VStr "gpt"]}) "model"))).
    discriminate.
  - apply (proj2 (proj2 (baml_dir_argument_touches_location_only
                           "/work" ∅ (VPath "/srv/schemas")
                           (Some {["model" := VStr "gpt"]}) "model"))).
    reflexivity.
Defined.

(** ** The steps that can raise outside the handler *)

Section Full_run_properties.
Context {Mgr : Type} `{!BamlManager Mgr}.
Implicit Types (self : Researcher.t Mgr) (f : PyCallable).
Implicit Types (e : PyExc) (v : PyValue) (instr : string).
Implicit Types (schema : Full.Schema).

(** What lines 65-76 make of the extractor's result, for any schema. *)
Lemma full_research_run instr schema f self :
  Full.research instr schema f self =
  match mgr_init (Researcher.baml_manager self) with
  | (Some e, m1) =>
      (Raise e, Researcher.Mk (Researcher.config self) m1, [EvInit])
  | (None, m1) =>
      match mgr_verify_function f m1 with
      | (Some e, m2) =>
          (Raise e, Researcher.Mk (Researcher.config self) m2,
           [EvInit; EvVerify (fn_name f)])
      | (None, m2) =>
          (match fn_call f ("[Research output for: " +:+ instr +:+ "]") with
           | Raise e =>
               if is_Exception e
               then Raise (ExtractionError
                             ("BAML extraction failed: " +:+ exc_str e)
                             (Some e))
               else Raise e
           | Ret v =>
               match Full.isinstance v schema with
               | Raise e => Raise e
               | Ret true => Ret v
               | Ret false =>
                   Raise (ExtractionError
                            ("BAML function returned "
                             +:+ str_class (type_of v) +:+ ", expected "
                             +:+ Full.str_schema schema) None)
               end
           end,
           Researcher.Mk (Researcher.config self) m2,
           [EvInit; EvVerify (fn_name f); EvBackend instr;
            EvExtract ("[Research output for: " +:+ instr +:+ "]")])
      end
  end.
Proof.
  unfold Full.research, mbind, M_bind, bind,
    Researcher.init, Researcher.verify_function; simpl.
  destruct (mgr_init (Researcher.baml_manager self)) as [[e1|] m1];
    simpl; [done|].
  destruct (mgr_verify_function f m1) as [[e2|] m2]; simpl; [done|].
  unfold try_except, Researcher.call, Full.lift.
  destruct (fn_call f _) as [v|e4]; simpl.
  - destruct (Full.isinstance v schema) as [[|]|e5]; simpl; done.
  - destruct (is_Exception e4); simpl; done.
Qed.

(** On a class, the fuller embedding is [Researcher.research]. *)
Lemma full_research_on_class instr (S : PyClass) f self :
  Full.research instr (Full.SClass S) f self
  = Researcher.research instr S f self.
Proof.
  rewrite full_research_run, research_run.
  destruct (mgr_init _) as [[e1|] m1]; [done|].
  destruct (mgr_verify_function f m1) as [[e2|] m2]; [done|].
  unfold extracted, Full.isinstance. cbn [Full.str_schema].
  destruct (fn_call f _) as [v|e]; [|done].
  by destruct (Py.isinstance v S).
Qed.

(** X4. Where an exception of [research] comes from: it is the one the
    manager's [init] raised, or the one [verify_function] raised, or one the
    extractor raised that is no instance of [Exception], or the one
    [isinstance] raised on the schema, or it is an [ExtractionError],
    chained to the extractor's exception, or without cause when the
    extractor returned a value that does not conform.  In particular the
    [TypeError] of a schema that [isinstance] refuses is not wrapped: it
    reaches the caller as it is, after the extractor has been called. *)
Theorem research_raises_classified instr schema f self :
  (∀ e,
     outcome (Full.research instr schema f self) = Raise e →
     (∃ m1, mgr_init (Researcher.baml_manager self) = (Some e, m1)) ∨
     (∃ m1 m2, mgr_init (Researcher.baml_manager self) = (None, m1) ∧
               mgr_verify_function f m1 = (Some e, m2)) ∨
     (fn_call f ("[Research output for: " +:+ instr +:+ "]") = Raise e ∧
      is_Exception e = false) ∨
     (∃ v, fn_call f ("[Research output for: " +:+ instr +:+ "]") = Ret v ∧
           Full.isinstance v schema = Raise e) ∨
     (exc_type e = ExtractionError_cls ∧
      ((∃ e0, fn_call f ("[Research output for: " +:+ instr +:+ "]")
                = Raise e0 ∧
              is_Exception e0 = true ∧ exc_cause e = Some e0) ∨
       (∃ v, fn_call f ("[Research output for: " +:+ instr +:+ "]") = Ret v ∧
             Full.isinstance v schema = Ret false ∧ exc_cause e = None)))) ∧
  (∀ printed complaint m1 m2 v,
     schema = Full.SRefused printed complaint →
     mgr_init (Researcher.baml_manager self) = (None, m1) →
     mgr_verify_function f m1 = (None, m2) →
     fn_call f ("[Research output for: " +:+ instr +:+ "]") = Ret v →
     outcome (Full.research instr schema f self)
       = Raise (MkExc Full.TypeError_cls complaint None) ∧
     calls is_extract (trace (Full.research instr schema f self)) = 1).
Proof.
  rewrite full_research_run. split.
  - intros e.
    destruct (mgr_init _) as [[e1|] m1].
    { intros Heq. inversion Heq; subst. left. by exists m1. }
    destruct (mgr_verify_function f m1) as [[e2|] m2] eqn:Hverify.
    { intros Heq. inversion Heq; subst. right; left. by exists m1, m2. }
    unfold outcome; cbn [fst].
    destruct (fn_call f _) as [v'|e'].
    + destruct (Full.isinstance v' schema) as [[|]|e5] eqn:Hconf;
        cbn [fst]; [done| |].
      * intros Heq. inversion Heq; subst.
        do 4 right. split; [done|]. right. by exists v'.
      * intros Heq. inversion Heq; subst.
        do 3 right. left. by exists v'.
    + destruct (is_Exception e') eqn:Hexc; cbn [fst].
      * intros Heq. inversion Heq; subst.
        do 4 right. split; [done|]. left. by exists e'.
      * intros Heq. inversion Heq; subst.
        right; right; left. done.
  - intros printed complaint m1 m2 v -> Hinit Hverify Hcall.
    by rewrite Hinit, Hverify, Hcall.
Qed.
End Full_run_properties.

(** ** The order of the constructor's steps *)

Section Full_init_properties.
Context {Mgr : Type}.
Variable from_dict : gmap string PyValue → Res ResearchConfig.t.
Variable construct_manager : PyValue → Res Mgr.
Variable validate_or_raise : ResearchConfig.t → option PyExc.

Local Abbreviation new_researcher :=
  (Full.__init__ from_dict construct_manager validate_or_raise).

(** With a [from_dict] and a manager constructor that return, the fuller
    embedding is [Researcher.__init__]. *)
Lemma full_init_when_total
      `{!BamlManager Mgr} cwd default_settings b config :
  Full.__init__ (λ m, Ret (ResearchConfig.from_dict cwd default_settings m))
                (λ d, Ret (mgr_new d)) validate_or_raise b config
  = Researcher.__init__ cwd default_settings validate_or_raise b config.
Proof. reflexivity. Qed.

(** X10. What a constructed orchestrator satisfies, and which failure the
    constructor reports.  An orchestrator that [__init__] returns holds the
    overridden configuration, which has passed validation, and the manager
    constructed on that configuration's location.  When [__init__] raises,
    the exception is [from_dict]'s, or else the manager constructor's, or
    else validation's: the manager is constructed on the location before the
    location is validated, so a failing constructor is what the caller sees
    even where validation would have failed as well. *)
Theorem init_fails_in_source_order
        (b : PyValue) (config : option (gmap string PyValue)) :
  (∀ r, new_researcher b config = Ret r →
        validate_or_raise (Researcher.config r) = None ∧
        construct_manager (ResearchConfig.baml_dir (Researcher.config r))
          = Ret (Researcher.baml_manager r) ∧
        ∃ c0, from_dict (Researcher.or_empty config) = Ret c0 ∧
              Researcher.config r = Full.overridden b c0) ∧
  (∀ e, new_researcher b config = Raise e →
        from_dict (Researcher.or_empty config) = Raise e ∨
        (∃ c0, from_dict (Researcher.or_empty config) = Ret c0 ∧
               construct_manager
                 (ResearchConfig.baml_dir (Full.overridden b c0)) = Raise e) ∨
        (∃ c0 m, from_dict (Researcher.or_empty config) = Ret c0 ∧
                 construct_manager
                   (ResearchConfig.baml_dir (Full.overridden b c0)) = Ret m ∧
                 validate_or_raise (Full.overridden b c0) = Some e)) ∧
  (∀ c0 e, from_dict (Researcher.or_empty config) = Ret c0 →
           construct_manager
             (ResearchConfig.baml_dir (Full.overridden b c0)) = Raise e →
           new_researcher b config = Raise e).
Proof.
  unfold Full.__init__. cbv zeta.
  destruct (from_dict (Researcher.or_empty config)) as [c0|e0] eqn:Hfrom.
  - destruct (construct_manager _) as [m|e1] eqn:Hnew.
    + destruct (validate_or_raise (Full.overridden b c0)) as [e2|] eqn:Hval.
      * split; [done|]. split.
        -- intros e Heq. inversion Heq; subst.
           right; right. by exists c0, m.
        -- intros c e Hc. inversion Hc; subst. by rewrite Hnew.
      * split.
        -- intros r Heq. inversion Heq; subst. cbn.
           split; [done|]. split; [done|]. by exists c0.
        -- split; [done|].
           intros c e Hc. inversion Hc; subst. by rewrite Hnew.
    + split; [done|]. split.
      * intros e Heq. inversion Heq; subst. right; left. by exists c0.
      * intros c e Hc. inversion Hc; subst. rewrite Hnew. by intros [= ->].
  - split; [done|]. split.
    + intros e Heq. inversion Heq; subst. by left.
    + done.
Qed.
End Full_init_properties.

Lemma research_raises_classified_witness :
  let refused := Full.SRefused
                   "list[int]"
                   "isinstance() argument 2 cannot be a parameterized generic"
  in
  outcome (@Full.research _ ok_manager "find X" refused good_extractor
                          researcher0)
    = Raise (MkExc Full.TypeError_cls
                   "isinstance() argument 2 cannot be a parameterized generic"
                   None) ∧
  calls is_extract
        (trace (@Full.research _ ok_manager "find X" refused good_extractor
                               researcher0)) = 1.
Proof.
  cbv zeta.
  eapply (proj2 (@research_raises_classified
                   _ ok_manager "find X" _ good_extractor researcher0));
    reflexivity.
Defined.

(** A location on which the manager cannot be constructed and which does
    not validate either: the caller sees the constructor's exception. *)
Lemma init_fails_in_source_order_witness :
  let unreadable := MkExc RuntimeError_cls "cannot read BAML project" None in
  let invalid := MkExc RuntimeError_cls "baml_dir does not exist" None in
  @Full.__init__ SpecManager.t
                 (λ m, Ret (ResearchConfig.from_dict "/work" ∅ m))
                 (λ _, Raise unreadable) (λ _, Some invalid)
                 (VPath "/missing") None
  = Raise unreadable.
Proof.
  cbv zeta.
  eapply (proj2 (proj2 (@init_fails_in_source_order
                          SpecManager.t _ _ _ (VPath "/missing") None)));
    reflexivity.
Defined.
